(** * Ethernet frame codec (package eth, file packet/eth/pkt.go)

    A shallow embedding of the Ethernet II / 802.3 header codec and of its
    EtherType translation table, with the properties of the codec proved
    over it.

    Conventions.  A Go [uint16] is a [Z] in the range [0, 65536); every
    addition the source performs on one is written with its reduction
    modulo 65536 ([wrap16]).  A byte slice is a [list byte].  A method
    with a pointer receiver that mutates the receiver is a function that
    returns the new receiver; the [error] result of a method is an
    [option error], [None] standing for Go's [nil]. *)

From Stdlib Require Import ZArith List Bool Lia.
From Stdlib Require Import Strings.Byte.
From Stdlib Require Strings.String Strings.HexString.
Import ListNotations.
Open Scope Z_scope.

(** ** Sixteen-bit arithmetic and bytes *)

Definition wrap16 (z : Z) : Z := z mod 65536.

Definition byte_to_Z (b : byte) : Z := Z.of_N (Byte.to_N b).

Definition byte_of_Z (z : Z) : byte :=
  match Byte.of_N (Z.to_N (z mod 256)) with
  | Some b => b
  | None => x00
  end.

(** Network byte order, as [binary.BigEndian] reads and writes a [uint16]. *)
Definition be16_decode (hi lo : byte) : Z :=
  Z.lor (Z.shiftl (byte_to_Z hi) 8) (byte_to_Z lo).

Definition be16_encode (v : Z) : list byte :=
  [byte_of_Z (Z.shiftr v 8); byte_of_Z v].

(** ** The collaborating package [packet]

    Package [packet] is imported by the codec and is not part of the
    source tree.  Its canonical type constants are taken as parameters;
    the layer interface [packet.Packet] and the cursor [packet.Buffer]
    are taken as interfaces with the methods the codec calls. *)

Module packet.

(** The canonical type constants the codec names, as 16-bit codes (the
    table stores them with [uint16(...)]). *)
Class Types : Type := {
  None : Z;
  ARP : Z;
  Eth : Z;
  IPv4 : Z;
  IPv6 : Z;
  LLC : Z;
  LLDP : Z;
  VLAN : Z;
  TRILL : Z;
  WoL : Z;
  Raw : Z
}.

(** The one error condition the cursor reports. *)
Inductive error : Type :=
| BufferUnderrun.

(** A call either returns a value or panics (a failed type assertion, a
    method called through a nil interface). *)
Inductive outcome (A : Type) : Type :=
| Returns (a : A)
| Panics.

Arguments Returns {A} a.
Arguments Panics {A}.

(** The methods of the layer interface [packet.Packet] the codec calls
    on a payload.  [Answers] receives the other side's payload, which
    may be nil. *)
Class Packet (P : Type) : Type := {
  GetType : P -> Z;
  GetLength : P -> Z;
  Answers : P -> option P -> outcome bool
}.

(** The methods of the cursor [packet.Buffer] the codec calls, as the
    codec consumes them.  [Next] yields one value, a slice.  [ReadI] is
    handed the address of a 16-bit field: it yields the field's new
    content, given its old one, and an error result.  [Write] and
    [WriteI] append. *)
Class Buffer (B : Type) : Type := {
  Next : B -> nat -> list byte * B;
  ReadI : B -> Z -> Z * B * option error;
  Write : B -> list byte -> B;
  WriteI : B -> Z -> B
}.

End packet.

(** ** EtherType constants (the [const] block of the source) *)

Module EtherType.

Definition None : Z := 0x0000.
Definition ARP : Z := 0x0806.
Definition IPv4 : Z := 0x0800.
Definition IPv6 : Z := 0x86dd.
Definition LLC : Z := 0x0001.
Definition LLDP : Z := 0x088cc.
Definition QinQ : Z := 0x88a8.
Definition TRILL : Z := 0x22f3.
Definition VLAN : Z := 0x8100.
Definition WoL : Z := 0x0842.

End EtherType.

(** ** The translation table and its two lookups *)

Section Translation.

Context {T : packet.Types}.

Definition ethertype_to_type_map : list (Z * Z) :=
  [ (EtherType.None,  packet.None);
    (EtherType.ARP,   packet.ARP);
    (EtherType.IPv4,  packet.IPv4);
    (EtherType.IPv6,  packet.IPv6);
    (EtherType.LLC,   packet.LLC);
    (EtherType.LLDP,  packet.LLDP);
    (EtherType.VLAN,  packet.VLAN);
    (EtherType.QinQ,  packet.VLAN);
    (EtherType.TRILL, packet.TRILL);
    (EtherType.WoL,   packet.WoL) ].

(** [for _, t := range m { if t[0] == ethertype { return t[1] } }; return dflt] *)
Fixpoint scan_forward (m : list (Z * Z)) (dflt ethertype : Z) : Z :=
  match m with
  | [] => dflt
  | t :: rest =>
      if fst t =? ethertype then snd t else scan_forward rest dflt ethertype
  end.

(** [for _, t := range m { if t[1] == pkttype { return t[0] } }; return dflt] *)
Fixpoint scan_reverse (m : list (Z * Z)) (dflt pkttype : Z) : Z :=
  match m with
  | [] => dflt
  | t :: rest =>
      if snd t =? pkttype then fst t else scan_reverse rest dflt pkttype
  end.

Definition EtherTypeToType (ethertype : Z) : Z :=
  scan_forward ethertype_to_type_map packet.Raw ethertype.

Definition TypeToEtherType (pkttype : Z) : Z :=
  scan_reverse ethertype_to_type_map EtherType.None pkttype.

End Translation.

(** [first_match f l i x]: [x] is the entry of [l] at index [i], it
    satisfies [f], and no entry before it does. *)
Definition first_match {A : Type} (f : A -> bool) (l : list A)
    (i : nat) (x : A) : Prop :=
  nth_error l i = Some x /\ f x = true /\
  forall j y, (j < i)%nat -> nth_error l j = Some y -> f y = false.

(** ** The frame *)

Section Frame.

Context {T : packet.Types}.
Context {P : Type} {PI : packet.Packet P}.

(** [type Packet struct]; the field [Type] is spelled [Type_]. *)
Record Packet : Type := mkPacket {
  DstAddr : list byte;
  SrcAddr : list byte;
  Type_ : Z;
  Length : Z;
  pkt_payload : option P
}.

(** A non-nil value of the interface [packet.Packet], by its dynamic
    type: a frame of this package or a layer of another one. *)
Inductive Layer : Type :=
| EthLayer (q : Packet)
| OtherLayer (x : P).

Definition Make : Packet :=
  {| DstAddr := repeat x00 6;
     SrcAddr := repeat x00 6;
     Type_ := 0;
     Length := 14;
     pkt_payload := None |}.

Definition GetType (p : Packet) : Z := packet.Eth.

Definition Payload (p : Packet) : option P := pkt_payload p.

Definition Layer_GetType (o : Layer) : Z :=
  match o with
  | EthLayer q => GetType q
  | OtherLayer x => packet.GetType x
  end.

(** The type assertion on [other] panics when the dynamic type of
    [other] is not a pointer to a frame of this package. *)
Definition Answers (p : Packet) (other : option Layer) : packet.outcome bool :=
  match other with
  | None => packet.Returns false
  | Some o =>
      if negb (Layer_GetType o =? packet.Eth) then packet.Returns false
      else
        match o with
        | OtherLayer _ => packet.Panics
        | EthLayer q =>
            if negb (Type_ p =? Type_ q) then packet.Returns false
            else
              match Payload p with
              | Some pl => packet.Answers pl (Payload q)
              | None => packet.Returns true
              end
        end
  end.

Definition GetLength (p : Packet) : Z :=
  if (0 <? Length p) && (Type_ p =? EtherType.LLC) then Length p
  else
    match pkt_payload p with
    | Some pl => wrap16 (packet.GetLength pl + 14)
    | None => 14
    end.

Definition PayloadType (p : Packet) : Z := EtherTypeToType (Type_ p).

Definition SetPayload (p : Packet) (pl : P) : Packet * option packet.error :=
  ({| DstAddr := DstAddr p;
      SrcAddr := SrcAddr p;
      Type_ := TypeToEtherType (packet.GetType pl);
      Length := wrap16 (Length p + packet.GetLength pl);
      pkt_payload := Some pl |},
   None).

Definition InitChecksum (p : Packet) (csum : Z) : Packet := p.

Section Codec.

Context {B : Type} {BI : packet.Buffer B}.

Definition Pack (p : Packet) (raw_pkt : B) : B * option packet.error :=
  let b1 := packet.Write raw_pkt (DstAddr p) in
  let b2 := packet.Write b1 (SrcAddr p) in
  let b3 :=
    if negb (Type_ p =? EtherType.LLC) then packet.WriteI b2 (Type_ p)
    else packet.WriteI b2 (Length p) in
  (b3, None).

(** The two slices come from [Next]; the error result of [ReadI] is
    dropped; the only [return] of the method returns [nil]. *)
Definition Unpack (p : Packet) (raw_pkt : B)
    : Packet * B * option packet.error :=
  let '(dst, b1) := packet.Next raw_pkt 6%nat in
  let '(src, b2) := packet.Next b1 6%nat in
  let '(ty, b3, _) := packet.ReadI b2 (Type_ p) in
  let p1 :=
    {| DstAddr := dst; SrcAddr := src; Type_ := ty;
       Length := Length p; pkt_payload := pkt_payload p |} in
  let p2 :=
    if ty <? 0x0600 then
      {| DstAddr := dst; SrcAddr := src; Type_ := EtherType.LLC;
         Length := ty; pkt_payload := pkt_payload p |}
    else p1 in
  (p2, b3, None).

End Codec.

End Frame.

(** ** A byte cursor *)

(** Modelled from the spec: the byte cursor ([packet.Buffer]) belongs to
    package [packet], which is not in the source tree.  The spec gives
    it four operations: [writeBytes(slice)], [writeUint16BE(v)],
    [readExactly(n)] and [readUint16BE(&v)], the last reporting
    BufferUnderrun when the input is exhausted.  The cursor holds the
    bytes and a read position; writes append, reads advance.  The codec
    takes the result of [Next] as a slice, with no error beside it, so a
    short cursor hands back the bytes that remain. *)
Record ByteBuffer : Type := mkByteBuffer {
  buf : list byte;
  off : nat
}.

Definition unread (b : ByteBuffer) : list byte := skipn (off b) (buf b).

Definition ByteBuffer_Next (b : ByteBuffer) (n : nat) : list byte * ByteBuffer :=
  (firstn n (unread b),
   {| buf := buf b; off := off b + Nat.min n (length (unread b)) |}).

Definition ByteBuffer_ReadI (b : ByteBuffer) (old : Z)
    : Z * ByteBuffer * option packet.error :=
  match unread b with
  | hi :: lo :: _ =>
      (be16_decode hi lo, {| buf := buf b; off := off b + 2 |}, None)
  | _ => (old, b, Some packet.BufferUnderrun)
  end.

Definition ByteBuffer_Write (b : ByteBuffer) (data : list byte) : ByteBuffer :=
  {| buf := buf b ++ data; off := off b |}.

Definition ByteBuffer_WriteI (b : ByteBuffer) (v : Z) : ByteBuffer :=
  {| buf := buf b ++ be16_encode v; off := off b |}.

Definition ByteBuffer_ops : packet.Buffer ByteBuffer :=
  {| packet.Next := ByteBuffer_Next;
     packet.ReadI := ByteBuffer_ReadI;
     packet.Write := ByteBuffer_Write;
     packet.WriteI := ByteBuffer_WriteI |}.

(** A cursor over [data], positioned at its start. *)
Definition buffer_of (data : list byte) : ByteBuffer :=
  {| buf := data; off := 0 |}.

(** ** Instances of the parameters *)

(** Modelled from the spec: the canonical type registry provides the
    enumerants None, ARP, IPv4, IPv6, LLC, LLDP, VLAN, TRILL, WoL, Raw
    and Ethernet; their codes are missing from the source tree and are
    numbered here in the order the spec lists them. *)
Definition registry : packet.Types :=
  {| packet.None := 0;
     packet.ARP := 1;
     packet.IPv4 := 2;
     packet.IPv6 := 3;
     packet.LLC := 4;
     packet.LLDP := 5;
     packet.VLAN := 6;
     packet.TRILL := 7;
     packet.WoL := 8;
     packet.Raw := 9;
     packet.Eth := 10 |}.

(** A layer of another package, reduced to what it reports through the
    interface: its canonical type, its length, and its verdict when
    asked whether it answers another layer. *)
Record Probe : Type := mkProbe {
  probe_type : Z;
  probe_length : Z;
  probe_answers : bool
}.

Definition Probe_ops : packet.Packet Probe :=
  {| packet.GetType := probe_type;
     packet.GetLength := probe_length;
     packet.Answers := fun x _ => packet.Returns (probe_answers x) |}.

(** The header of the spec's examples: destination AA:BB:CC:DD:EE:FF,
    source 00:11:22:33:44:55, then the two bytes of the type-or-length
    field. *)
Definition example_dst : list byte := [xaa; xbb; xcc; xdd; xee; xff].

Definition example_src : list byte := [x00; x11; x22; x33; x44; x55].

Definition example_header (hi lo : byte) : list byte :=
  example_dst ++ example_src ++ [hi; lo].

(** Frames and payloads for the examples: a payload that reports the
    canonical type [ty] and the length [len], a frame of EtherType [ty]
    without payload, a fresh frame to which a payload has been
    attached, and an 802.3 frame of length 32. *)
Definition probe (ty len : Z) : Probe :=
  {| probe_type := ty; probe_length := len; probe_answers := true |}.

Definition bare_frame (ty : Z) : Packet (P := Probe) :=
  {| DstAddr := example_dst; SrcAddr := example_src; Type_ := ty;
     Length := 14; pkt_payload := None |}.

Definition loaded_frame (pl : Probe) : Packet (P := Probe) :=
  fst (@SetPayload registry Probe Probe_ops Make pl).

Definition llc_frame : Packet (P := Probe) :=
  {| DstAddr := example_dst; SrcAddr := example_src;
     Type_ := EtherType.LLC; Length := 32; pkt_payload := None |}.


(** ** Rendering an EtherType *)

Module Render.

Import Stdlib.Strings.String.

(** [fmt.Sprintf("0x%x", v)] on an unsigned value: the prefix, then the
    lowercase hexadecimal digits of [v], none for a leading zero and one
    for the value zero. *)
Definition Sprintf_0x_x (v : Z) : string := HexString.of_N (Z.to_N v).

(** [func (t EtherType) String() string]: the cases in the order of the
    [switch]. *)
Definition EtherType_String (t : Z) : string :=
  if t =? EtherType.ARP then "ARP"
  else if t =? EtherType.IPv4 then "IPv4"
  else if t =? EtherType.IPv6 then "IPv6"
  else if t =? EtherType.LLC then "LLC"
  else if t =? EtherType.LLDP then "LLDP"
  else if t =? EtherType.None then "None"
  else if t =? EtherType.QinQ then "QinQ"
  else if t =? EtherType.TRILL then "TRILL"
  else if t =? EtherType.VLAN then "VLAN"
  else if t =? EtherType.WoL then "WoL"
  else Sprintf_0x_x t.

(** The names the [switch] returns. *)
Definition EtherType_names : list string :=
  ["ARP"%string; "IPv4"%string; "IPv6"%string; "LLC"%string;
   "LLDP"%string; "None"%string; "QinQ"%string; "TRILL"%string;
   "VLAN"%string; "WoL"%string].

End Render.

(** * Properties *)

(** ** Bytes and big-endian words *)

Lemma byte_to_Z_range (b : byte) : 0 <= byte_to_Z b < 256.
Proof.
  unfold byte_to_Z. pose proof (Byte.to_N_bounded b). lia.
Qed.

Lemma byte_of_to_Z (b : byte) : byte_of_Z (byte_to_Z b) = b.
Proof.
  unfold byte_of_Z. rewrite Z.mod_small by apply byte_to_Z_range.
  unfold byte_to_Z. rewrite N2Z.id, Byte.of_to_N. reflexivity.
Qed.

Lemma land_high_low (h l : Z) : 0 <= l < 256 -> Z.land (Z.shiftl h 8) l = 0.
Proof.
  intros Hl. apply Z.bits_inj'. intros n Hn.
  rewrite Z.land_spec, Z.bits_0.
  destruct (Z.lt_ge_cases n 8) as [Hlt | Hge].
  - rewrite Z.shiftl_spec_low by lia. reflexivity.
  - destruct (Z.eq_dec l 0) as [-> | Hnz].
    + rewrite Z.bits_0. apply andb_false_r.
    + rewrite (Z.bits_above_log2 l n), andb_false_r; [reflexivity | lia |].
      apply Z.lt_le_trans with 8; [| exact Hge].
      apply Z.log2_lt_pow2; [lia | change (2 ^ 8) with 256; lia].
Qed.

Lemma be16_decode_sum (hi lo : byte) :
  be16_decode hi lo = byte_to_Z hi * 256 + byte_to_Z lo.
Proof.
  unfold be16_decode.
  pose proof (land_high_low (byte_to_Z hi) (byte_to_Z lo) (byte_to_Z_range lo)) as H0.
  rewrite <- (Z.lxor_lor _ _ H0), <- (Z.add_nocarry_lxor _ _ H0).
  rewrite Z.shiftl_mul_pow2 by lia. reflexivity.
Qed.

Lemma be16_decode_range (hi lo : byte) : 0 <= be16_decode hi lo < 65536.
Proof.
  rewrite be16_decode_sum.
  pose proof (byte_to_Z_range hi). pose proof (byte_to_Z_range lo). lia.
Qed.

Lemma be16_encode_decode (hi lo : byte) :
  be16_encode (be16_decode hi lo) = [hi; lo].
Proof.
  unfold be16_encode. rewrite be16_decode_sum.
  pose proof (byte_to_Z_range hi) as Hh. pose proof (byte_to_Z_range lo) as Hl.
  rewrite Z.shiftr_div_pow2 by lia. change (2 ^ 8) with 256.
  rewrite Z.div_add_l by lia. rewrite (Z.div_small (byte_to_Z lo)) by lia.
  rewrite Z.add_0_r, byte_of_to_Z.
  replace (byte_of_Z (byte_to_Z hi * 256 + byte_to_Z lo)) with lo; [reflexivity |].
  unfold byte_of_Z. rewrite Z.add_comm, Z.mod_add by lia.
  rewrite Z.mod_small by lia. unfold byte_to_Z. rewrite N2Z.id, Byte.of_to_N.
  reflexivity.
Qed.

(** ** The two scans of a table *)

Section Scans.

Lemma first_match_cons {A : Type} (f : A -> bool) (x : A) (l : list A)
    (i : nat) (y : A) :
  f x = false -> first_match f l i y -> first_match f (x :: l) (S i) y.
Proof.
  intros Hx (Hn & Hy & Hbefore). repeat split; auto.
  intros [| j] z Hj Hz; simpl in Hz.
  - injection Hz as <-. exact Hx.
  - apply (Hbefore j); [lia | exact Hz].
Qed.

Lemma first_match_head {A : Type} (f : A -> bool) (x : A) (l : list A) :
  f x = true -> first_match f (x :: l) 0 x.
Proof.
  intros Hx. repeat split; auto. intros j y Hj. lia.
Qed.

Lemma scan_forward_spec (m : list (Z * Z)) (dflt e : Z) :
  (exists i t, first_match (fun t => fst t =? e) m i t /\
               scan_forward m dflt e = snd t) \/
  ((forall t, In t m -> fst t <> e) /\ scan_forward m dflt e = dflt).
Proof.
  induction m as [| t rest IH]; simpl.
  - right. split; [intros t [] | reflexivity].
  - destruct (Z.eqb_spec (fst t) e) as [Heq | Hne].
    + left. exists 0%nat, t. split; [| reflexivity].
      apply first_match_head. apply Z.eqb_eq, Heq.
    + destruct IH as [(i & u & Hfm & Hres) | (Hnone & Hres)].
      * left. exists (S i), u. split; [| exact Hres].
        apply first_match_cons; [apply Z.eqb_neq, Hne | exact Hfm].
      * right. split; [| exact Hres].
        intros u [<- | Hin]; [exact Hne | apply Hnone, Hin].
Qed.

Lemma scan_reverse_spec (m : list (Z * Z)) (dflt c : Z) :
  (exists i t, first_match (fun t => snd t =? c) m i t /\
               scan_reverse m dflt c = fst t) \/
  ((forall t, In t m -> snd t <> c) /\ scan_reverse m dflt c = dflt).
Proof.
  induction m as [| t rest IH]; simpl.
  - right. split; [intros t [] | reflexivity].
  - destruct (Z.eqb_spec (snd t) c) as [Heq | Hne].
    + left. exists 0%nat, t. split; [| reflexivity].
      apply first_match_head. apply Z.eqb_eq, Heq.
    + destruct IH as [(i & u & Hfm & Hres) | (Hnone & Hres)].
      * left. exists (S i), u. split; [| exact Hres].
        apply first_match_cons; [apply Z.eqb_neq, Hne | exact Hfm].
      * right. split; [| exact Hres].
        intros u [<- | Hin]; [exact Hne | apply Hnone, Hin].
Qed.

(** A reverse scan that finds its key lands on a key of the table. *)
Lemma scan_reverse_in (m : list (Z * Z)) (dflt c : Z) :
  In c (map snd m) -> In (scan_reverse m dflt c) (map fst m).
Proof.
  induction m as [| t rest IH]; simpl; [tauto |].
  intros [Heq | Hin].
  - rewrite Heq, Z.eqb_refl. left. reflexivity.
  - destruct (snd t =? c); [left; reflexivity | right; apply IH, Hin].
Qed.

(** When no EtherType is listed twice, scanning back and forth from a
    listed canonical type returns to it. *)
Lemma scan_reverse_forward (m : list (Z * Z)) (d d' c : Z) :
  NoDup (map fst m) -> In c (map snd m) ->
  scan_forward m d (scan_reverse m d' c) = c.
Proof.
  induction m as [| t rest IH]; simpl; [tauto |].
  intros Hnd Hin. inversion Hnd as [| x l Hnotin Hnd' ]; subst.
  destruct (Z.eqb_spec (snd t) c) as [Heq | Hne].
  - rewrite Z.eqb_refl. exact Heq.
  - destruct Hin as [Heq | Hin]; [contradiction |].
    destruct (Z.eqb_spec (fst t) (scan_reverse rest d' c)) as [Hhit | Hmiss].
    + exfalso. apply Hnotin. rewrite Hhit. apply scan_reverse_in, Hin.
    + apply IH; assumption.
Qed.

End Scans.

(** ** The translation table *)

Section TranslationFacts.

Context {T : packet.Types}.

Lemma ethertypes_listed_once : NoDup (map fst ethertype_to_type_map).
Proof.
  simpl. repeat constructor; simpl; intuition discriminate.
Qed.

(** C8. Forward translation returns the canonical type of the first
    table entry whose EtherType matches and [packet.Raw] when no entry
    matches; reverse translation returns the EtherType of the first
    entry whose canonical type matches and [None] (0x0000) when no
    entry matches.  Both are total functions that return a plain value:
    there is no error result to signal. *)
Theorem translation_first_match_or_sentinel :
  (forall e : Z,
      (exists i t,
          first_match (fun t => fst t =? e) ethertype_to_type_map i t /\
          EtherTypeToType e = snd t) \/
      ((forall t, In t ethertype_to_type_map -> fst t <> e) /\
       EtherTypeToType e = packet.Raw)) /\
  (forall c : Z,
      (exists i t,
          first_match (fun t => snd t =? c) ethertype_to_type_map i t /\
          TypeToEtherType c = fst t) \/
      ((forall t, In t ethertype_to_type_map -> snd t <> c) /\
       TypeToEtherType c = EtherType.None)) /\
  EtherType.None = 0x0000.
Proof.
  split; [| split].
  - intros e. apply scan_forward_spec.
  - intros c. apply scan_reverse_spec.
  - reflexivity.
Qed.

Lemma EtherTypeToType_QinQ : EtherTypeToType EtherType.QinQ = packet.VLAN.
Proof. reflexivity. Qed.

Lemma TypeToEtherType_VLAN_candidates :
  In (TypeToEtherType packet.VLAN)
     [EtherType.None; EtherType.ARP; EtherType.IPv4; EtherType.IPv6;
      EtherType.LLC; EtherType.LLDP; EtherType.VLAN].
Proof.
  unfold TypeToEtherType, ethertype_to_type_map, scan_reverse, fst, snd.
  repeat match goal with
         | |- context [if ?a =? ?b then _ else _] =>
             destruct (Z.eqb_spec a b); [simpl; tauto |]
         end.
  congruence.
Qed.

(** C10. Reverse translation followed by forward translation is the
    identity on every canonical type listed in the table.  Forward
    followed by reverse is not the identity on EtherTypes: it never
    gives Q-in-Q back, and gives VLAN for it as soon as the code of
    [packet.VLAN] differs from the codes listed before it. *)
Theorem reverse_then_forward_identity :
  (forall c : Z,
      In c (map snd ethertype_to_type_map) ->
      EtherTypeToType (TypeToEtherType c) = c) /\
  TypeToEtherType (EtherTypeToType EtherType.QinQ) <> EtherType.QinQ /\
  (~ In packet.VLAN [packet.None; packet.ARP; packet.IPv4; packet.IPv6;
                     packet.LLC; packet.LLDP] ->
   TypeToEtherType (EtherTypeToType EtherType.QinQ) = EtherType.VLAN).
Proof.
  split; [| split].
  - intros c Hin. unfold EtherTypeToType, TypeToEtherType.
    apply scan_reverse_forward; [apply ethertypes_listed_once | exact Hin].
  - rewrite EtherTypeToType_QinQ.
    pose proof TypeToEtherType_VLAN_candidates as Hc. simpl in Hc.
    intros Heq. rewrite Heq in Hc.
    repeat (destruct Hc as [Hc | Hc]; [discriminate Hc |]). exact Hc.
  - intros Hfresh. rewrite EtherTypeToType_QinQ.
    unfold TypeToEtherType, ethertype_to_type_map, scan_reverse, fst, snd.
    repeat match goal with
           | |- context [if ?a =? ?b then _ else _] =>
               destruct (Z.eqb_spec a b);
               [first [reflexivity
                      | exfalso; apply Hfresh; simpl; intuition congruence] |]
           end.
    congruence.
Qed.

End TranslationFacts.

Lemma reverse_then_forward_identity_witness :
  In 6 (map snd (@ethertype_to_type_map registry)) /\
  @EtherTypeToType registry (@TypeToEtherType registry 6) = 6 /\
  ~ In 6 [0; 1; 2; 3; 4; 5] /\
  @TypeToEtherType registry (@EtherTypeToType registry EtherType.QinQ)
    = EtherType.VLAN.
Proof.
  assert (Hin : In 6 (map snd (@ethertype_to_type_map registry)))
    by (simpl; tauto).
  assert (Hfresh : ~ In 6 [0; 1; 2; 3; 4; 5])
    by (simpl; intuition discriminate).
  split; [exact Hin |].
  split; [exact (proj1 (@reverse_then_forward_identity registry) 6 Hin) |].
  split; [exact Hfresh |].
  exact (proj2 (proj2 (@reverse_then_forward_identity registry)) Hfresh).
Defined.

(** ** The byte cursor *)

Lemma ByteBuffer_Next_exact (b : ByteBuffer) (n : nat) (d x : list byte) :
  length d = n -> unread b = d ++ x ->
  ByteBuffer_Next b n = (d, {| buf := buf b; off := off b + n |}) /\
  unread {| buf := buf b; off := off b + n |} = x.
Proof.
  intros Hlen Hun. unfold ByteBuffer_Next. split.
  - rewrite Hun, length_app, Nat.min_l by lia.
    rewrite <- Hlen, firstn_app, firstn_all, Nat.sub_diag.
    simpl. rewrite app_nil_r. reflexivity.
  - unfold unread in *. simpl.
    rewrite (Nat.add_comm (off b) n), <- skipn_skipn, Hun.
    rewrite <- Hlen, skipn_app, skipn_all, Nat.sub_diag. reflexivity.
Qed.

Lemma ByteBuffer_ReadI_exact (b : ByteBuffer) (old : Z) (hi lo : byte)
    (x : list byte) :
  unread b = hi :: lo :: x ->
  ByteBuffer_ReadI b old
    = (be16_decode hi lo, {| buf := buf b; off := off b + 2 |}, None) /\
  unread {| buf := buf b; off := off b + 2 |} = x.
Proof.
  intros Hun. unfold ByteBuffer_ReadI. rewrite Hun. split; [reflexivity |].
  unfold unread in *. simpl.
  rewrite (Nat.add_comm (off b) 2), <- skipn_skipn, Hun. reflexivity.
Qed.

(** ** Decoding and encoding the header *)

Section HeaderCodec.

Context {P : Type}.

Lemma Unpack_header (p : Packet (P := P)) (b : ByteBuffer)
    (dst src rest : list byte) (hi lo : byte) :
  length dst = 6%nat -> length src = 6%nat ->
  unread b = dst ++ src ++ hi :: lo :: rest ->
  Unpack (BI := ByteBuffer_ops) p b
    = (if be16_decode hi lo <? 0x0600 then
         {| DstAddr := dst; SrcAddr := src; Type_ := EtherType.LLC;
            Length := be16_decode hi lo; pkt_payload := pkt_payload p |}
       else
         {| DstAddr := dst; SrcAddr := src; Type_ := be16_decode hi lo;
            Length := Length p; pkt_payload := pkt_payload p |},
       {| buf := buf b; off := off b + 14 |}, None).
Proof.
  intros Hd Hs Hun. unfold Unpack.
  cbn [packet.Next packet.ReadI ByteBuffer_ops].
  destruct (ByteBuffer_Next_exact b 6 dst _ Hd Hun) as [-> Hun1].
  destruct (ByteBuffer_Next_exact _ 6 src _ Hs Hun1) as [-> Hun2].
  destruct (ByteBuffer_ReadI_exact _ (Type_ p) hi lo rest Hun2) as [-> _].
  cbn [buf off].
  replace (off b + 6 + 6 + 2)%nat with (off b + 14)%nat by lia.
  reflexivity.
Qed.

(** Whatever the type-or-length field holds, encoding the decoded
    header appends the fourteen bytes that were read. *)
Lemma Unpack_Pack_bytes (p : Packet (P := P)) (b out : ByteBuffer)
    (dst src rest : list byte) (hi lo : byte) :
  length dst = 6%nat -> length src = 6%nat ->
  unread b = dst ++ src ++ hi :: lo :: rest ->
  buf (fst (Pack (BI := ByteBuffer_ops)
              (fst (fst (Unpack (BI := ByteBuffer_ops) p b))) out))
    = buf out ++ dst ++ src ++ [hi; lo].
Proof.
  intros Hd Hs Hun. rewrite (Unpack_header p b dst src rest hi lo Hd Hs Hun).
  unfold Pack. cbn [packet.Write packet.WriteI ByteBuffer_ops fst].
  destruct (Z.ltb_spec (be16_decode hi lo) 0x0600) as [Hlt | Hge];
    cbn [Type_ Length DstAddr SrcAddr].
  - rewrite Z.eqb_refl. cbn [negb fst ByteBuffer_WriteI ByteBuffer_Write buf].
    rewrite be16_encode_decode, <- !app_assoc. reflexivity.
  - destruct (Z.eqb_spec (be16_decode hi lo) EtherType.LLC) as [He | _].
    + exfalso. rewrite He in Hge. unfold EtherType.LLC in Hge. lia.
    + cbn [negb fst ByteBuffer_WriteI ByteBuffer_Write buf].
      rewrite be16_encode_decode, <- !app_assoc. reflexivity.
Qed.

(** C1. Decoding a 14-byte header whose type-or-length field reads
    [raw] (big-endian): when [raw < 0x0600] the frame's length field is
    [raw] and its type is the LLC sentinel; otherwise its type is [raw]
    and its length field keeps the value it had before the decode. *)
Theorem Unpack_type_or_length (p : Packet (P := P)) (b : ByteBuffer)
    (dst src rest : list byte) (hi lo : byte) :
  length dst = 6%nat -> length src = 6%nat ->
  unread b = dst ++ src ++ hi :: lo :: rest ->
  let raw := be16_decode hi lo in
  let p' := fst (fst (Unpack (BI := ByteBuffer_ops) p b)) in
  (raw < 0x0600 -> Length p' = raw /\ Type_ p' = EtherType.LLC) /\
  (0x0600 <= raw -> Type_ p' = raw /\ Length p' = Length p).
Proof.
  intros Hd Hs Hun raw p'. subst p'.
  rewrite (Unpack_header p b dst src rest hi lo Hd Hs Hun). fold raw.
  cbn [fst]. split; intros Hraw.
  - apply Z.ltb_lt in Hraw. rewrite Hraw. split; reflexivity.
  - apply Z.ltb_ge in Hraw. rewrite Hraw. split; reflexivity.
Qed.

(** C2, as the code has it. Whatever the cursor does, and however few
    bytes it holds, the decode returns nil: the error result of the read
    is dropped and no length is checked.  The address fields of the
    frame become whatever the two calls of [Next] yield. *)
Theorem Unpack_returns_nil {B : Type} {BI : packet.Buffer B}
    (p : Packet (P := P)) (b : B) :
  snd (Unpack p b) = None /\
  DstAddr (fst (fst (Unpack p b))) = fst (packet.Next b 6) /\
  SrcAddr (fst (fst (Unpack p b)))
    = fst (packet.Next (snd (packet.Next b 6)) 6).
Proof.
  unfold Unpack.
  destruct (packet.Next b 6) as [dst b1]. cbn [fst snd].
  destruct (packet.Next b1 6) as [src b2]. cbn [fst snd].
  destruct (packet.ReadI b2 (Type_ p)) as [[ty b3] e].
  destruct (ty <? 0x0600); repeat split.
Qed.

(** C3, as the code has it. For every EtherType value of at least
    0x0600, Q-in-Q included, decoding a header and encoding the decoded
    frame reproduces the fourteen bytes that were read. *)
Theorem Unpack_Pack_header_roundtrip (p : Packet (P := P))
    (b out : ByteBuffer) (dst src rest : list byte) (hi lo : byte) :
  length dst = 6%nat -> length src = 6%nat ->
  unread b = dst ++ src ++ hi :: lo :: rest ->
  0x0600 <= be16_decode hi lo ->
  buf (fst (Pack (BI := ByteBuffer_ops)
              (fst (fst (Unpack (BI := ByteBuffer_ops) p b))) out))
    = buf out ++ dst ++ src ++ [hi; lo].
Proof.
  intros Hd Hs Hun _. apply (Unpack_Pack_bytes p b out dst src rest hi lo Hd Hs Hun).
Qed.

End HeaderCodec.

(** C7. For every raw type-or-length value below 0x0600, the decoded
    frame has the LLC sentinel as its type, [packet.LLC] as the
    canonical type of its payload and the raw value as its length, and
    encoding it writes the two bytes that were read back after the
    addresses. *)
Theorem Unpack_Pack_LLC_roundtrip {T : packet.Types} {P : Type}
    (p : Packet (P := P)) (b out : ByteBuffer)
    (dst src rest : list byte) (hi lo : byte) :
  length dst = 6%nat -> length src = 6%nat ->
  unread b = dst ++ src ++ hi :: lo :: rest ->
  be16_decode hi lo < 0x0600 ->
  let p' := fst (fst (Unpack (BI := ByteBuffer_ops) p b)) in
  Type_ p' = EtherType.LLC /\
  PayloadType p' = packet.LLC /\
  Length p' = be16_decode hi lo /\
  buf (fst (Pack (BI := ByteBuffer_ops) p' out))
    = buf out ++ dst ++ src ++ [hi; lo].
Proof.
  intros Hd Hs Hun Hraw p'.
  assert (Hp' : p' = {| DstAddr := dst; SrcAddr := src;
                        Type_ := EtherType.LLC;
                        Length := be16_decode hi lo;
                        pkt_payload := pkt_payload p |}).
  { subst p'. rewrite (Unpack_header p b dst src rest hi lo Hd Hs Hun).
    apply Z.ltb_lt in Hraw. rewrite Hraw. reflexivity. }
  split; [rewrite Hp'; reflexivity |].
  split; [rewrite Hp'; reflexivity |].
  split; [rewrite Hp'; reflexivity |].
  apply (Unpack_Pack_bytes p b out dst src rest hi lo Hd Hs Hun).
Qed.

Lemma Unpack_type_or_length_witness :
  length example_dst = 6%nat /\ length example_src = 6%nat /\
  unread (buffer_of (example_header x00 x20))
    = example_dst ++ example_src ++ [x00; x20] /\
  be16_decode x00 x20 < 0x0600 /\
  Length (fst (fst (Unpack (BI := ByteBuffer_ops) (Make (P := Probe))
                      (buffer_of (example_header x00 x20))))) = 32 /\
  Type_ (fst (fst (Unpack (BI := ByteBuffer_ops) (Make (P := Probe))
                     (buffer_of (example_header x00 x20))))) = EtherType.LLC.
Proof.
  assert (Hraw : be16_decode x00 x20 < 0x0600) by (vm_compute; reflexivity).
  do 3 (split; [reflexivity |]).
  split; [exact Hraw |].
  exact (proj1 (Unpack_type_or_length (Make (P := Probe))
                  (buffer_of (example_header x00 x20))
                  example_dst example_src [] x00 x20
                  eq_refl eq_refl eq_refl) Hraw).
Defined.

Lemma Unpack_underrun_counterexample :
  (length (unread (buffer_of (firstn 13 (example_header x08 x00)))) < 14)%nat /\
  snd (Unpack (BI := ByteBuffer_ops) (Make (P := Probe))
         (buffer_of (firstn 13 (example_header x08 x00))))
    <> Some packet.BufferUnderrun /\
  fst (fst (Unpack (BI := ByteBuffer_ops) (Make (P := Probe))
              (buffer_of (firstn 13 (example_header x08 x00)))))
    = {| DstAddr := example_dst; SrcAddr := example_src;
         Type_ := EtherType.LLC; Length := 0; pkt_payload := None |} /\
  fst (fst (Unpack (BI := ByteBuffer_ops) (Make (P := Probe))
              (buffer_of (firstn 13 (example_header x08 x00)))))
    <> Make.
Proof.
  split; [simpl; lia |].
  split; [discriminate |].
  split; [reflexivity | discriminate].
Qed.

Lemma QinQ_header_reencoded_counterexample :
  be16_decode x88 xa8 = EtherType.QinQ /\
  buf (fst (Pack (BI := ByteBuffer_ops)
              (fst (fst (Unpack (BI := ByteBuffer_ops) (Make (P := Probe))
                           (buffer_of (example_header x88 xa8)))))
              (buffer_of [])))
    = example_header x88 xa8 /\
  example_header x88 xa8
    <> example_dst ++ example_src ++ be16_encode EtherType.VLAN.
Proof.
  split; [reflexivity |].
  split; [reflexivity | discriminate].
Qed.

Lemma Unpack_Pack_header_roundtrip_witness :
  length example_dst = 6%nat /\ length example_src = 6%nat /\
  unread (buffer_of (example_header x88 xa8))
    = example_dst ++ example_src ++ [x88; xa8] /\
  0x0600 <= be16_decode x88 xa8 /\
  buf (fst (Pack (BI := ByteBuffer_ops)
              (fst (fst (Unpack (BI := ByteBuffer_ops) (Make (P := Probe))
                           (buffer_of (example_header x88 xa8)))))
              (buffer_of [])))
    = example_dst ++ example_src ++ [x88; xa8].
Proof.
  assert (Hraw : 0x0600 <= be16_decode x88 xa8) by (vm_compute; discriminate).
  do 3 (split; [reflexivity |]).
  split; [exact Hraw |].
  exact (Unpack_Pack_header_roundtrip (Make (P := Probe))
           (buffer_of (example_header x88 xa8)) (buffer_of [])
           example_dst example_src [] x88 xa8 eq_refl eq_refl eq_refl Hraw).
Defined.

Lemma Unpack_Pack_LLC_roundtrip_witness :
  length example_dst = 6%nat /\ length example_src = 6%nat /\
  unread (buffer_of (example_header x00 x20))
    = example_dst ++ example_src ++ [x00; x20] /\
  be16_decode x00 x20 < 0x0600 /\
  @PayloadType registry Probe
    (fst (fst (Unpack (BI := ByteBuffer_ops) (Make (P := Probe))
                 (buffer_of (example_header x00 x20))))) = 4 /\
  buf (fst (Pack (BI := ByteBuffer_ops)
              (fst (fst (Unpack (BI := ByteBuffer_ops) (Make (P := Probe))
                           (buffer_of (example_header x00 x20)))))
              (buffer_of [])))
    = example_dst ++ example_src ++ [x00; x20].
Proof.
  assert (Hraw : be16_decode x00 x20 < 0x0600) by (vm_compute; reflexivity).
  do 3 (split; [reflexivity |]).
  split; [exact Hraw |].
  pose proof (@Unpack_Pack_LLC_roundtrip registry Probe (Make (P := Probe))
                (buffer_of (example_header x00 x20)) (buffer_of [])
                example_dst example_src [] x00 x20
                eq_refl eq_refl eq_refl Hraw) as H.
  split; [exact (proj1 (proj2 H)) | exact (proj2 (proj2 (proj2 H)))].
Defined.

(** ** Length, payload attachment and answer matching *)

Section FrameFacts.

Context {T : packet.Types}.
Context {P : Type} {PI : packet.Packet P}.

Lemma wrap16_range (z : Z) : 0 <= wrap16 z < 65536.
Proof. unfold wrap16. apply Z.mod_pos_bound. lia. Qed.

Lemma wrap16_small (z : Z) : 0 <= z < 65536 -> wrap16 z = z.
Proof. intros Hz. unfold wrap16. apply Z.mod_small, Hz. Qed.

Lemma wrap16_add_twice (a l : Z) :
  wrap16 (wrap16 (a + l) + l) = wrap16 (a + 2 * l).
Proof.
  unfold wrap16. rewrite Z.add_mod_idemp_l by lia. f_equal. lia.
Qed.

(** The length a frame reports once a payload has been attached to a
    frame whose cached length was 14. *)
Lemma GetLength_after_SetPayload (p : Packet) (pl : P) :
  Length p = 14 ->
  GetLength (fst (SetPayload p pl)) = wrap16 (14 + packet.GetLength pl).
Proof.
  intros Hlen. unfold GetLength, SetPayload.
  cbn [fst Length Type_ pkt_payload]. rewrite Hlen.
  destruct ((0 <? wrap16 (14 + packet.GetLength pl)) &&
            (TypeToEtherType (packet.GetType pl) =? EtherType.LLC)).
  - reflexivity.
  - f_equal. lia.
Qed.

(** C4, as the code has it. The frame reports its stored length when
    its type is the LLC sentinel and that length is nonzero; otherwise
    14 plus the length its payload reports, reduced modulo 65536, when
    it has a payload; otherwise 14.  A fresh frame reports 14.  Absent
    the LLC override the result is at least 14 as long as the payload
    reports at most 65521. *)
Theorem GetLength_cases (p : Packet) :
  (Type_ p = EtherType.LLC -> 0 < Length p -> GetLength p = Length p) /\
  (forall pl, ~ (Type_ p = EtherType.LLC /\ 0 < Length p) ->
              pkt_payload p = Some pl ->
              GetLength p = wrap16 (packet.GetLength pl + 14)) /\
  (~ (Type_ p = EtherType.LLC /\ 0 < Length p) ->
   pkt_payload p = None -> GetLength p = 14) /\
  GetLength (Make (P := P)) = 14 /\
  (~ (Type_ p = EtherType.LLC /\ 0 < Length p) ->
   (forall pl, pkt_payload p = Some pl ->
               0 <= packet.GetLength pl <= 65521) ->
   14 <= GetLength p).
Proof.
  assert (Hoff : ~ (Type_ p = EtherType.LLC /\ 0 < Length p) ->
                 (0 <? Length p) && (Type_ p =? EtherType.LLC) = false).
  { intros Hno. apply andb_false_iff.
    destruct (Z.ltb_spec 0 (Length p)) as [Hpos | Hzero]; [| left; reflexivity].
    right. apply Z.eqb_neq. intros Hty. apply Hno. split; assumption. }
  unfold GetLength. repeat split.
  - intros Hty Hpos. apply Z.eqb_eq in Hty. apply Z.ltb_lt in Hpos.
    rewrite Hty, Hpos. reflexivity.
  - intros pl Hno Hpl. rewrite (Hoff Hno), Hpl. reflexivity.
  - intros Hno Hpl. rewrite (Hoff Hno), Hpl. reflexivity.
  - intros Hno Hbound. rewrite (Hoff Hno).
    destruct (pkt_payload p) as [pl |]; [| lia].
    specialize (Hbound pl eq_refl). rewrite wrap16_small; lia.
Qed.

(** C5, as the code has it. Attaching a payload to a fresh frame stores
    the payload, sets the EtherType to the reverse translation of the
    payload's canonical type (0x0000 when the table does not list it),
    returns nil, and makes the frame report 14 plus the payload's
    length reduced modulo 65536: exactly 14 plus that length when it is
    at most 65521. *)
Theorem SetPayload_fresh (pl : P) :
  snd (SetPayload Make pl) = None /\
  pkt_payload (fst (SetPayload Make pl)) = Some pl /\
  Type_ (fst (SetPayload Make pl)) = TypeToEtherType (packet.GetType pl) /\
  ((forall t, In t ethertype_to_type_map -> snd t <> packet.GetType pl) ->
   Type_ (fst (SetPayload Make pl)) = 0x0000) /\
  GetLength (fst (SetPayload Make pl)) = wrap16 (14 + packet.GetLength pl) /\
  (0 <= packet.GetLength pl <= 65521 ->
   GetLength (fst (SetPayload Make pl)) = 14 + packet.GetLength pl).
Proof.
  split; [reflexivity |].
  split; [reflexivity |].
  split; [reflexivity |].
  split; [| split].
  - intros Hnone. cbn [SetPayload fst Type_]. unfold TypeToEtherType.
    destruct (scan_reverse_spec ethertype_to_type_map EtherType.None
                (packet.GetType pl)) as [(i & t & Hfm & _) | [_ Hres]].
    + exfalso. destruct Hfm as (Hnth & Hhit & _).
      apply (Hnone t); [eapply nth_error_In, Hnth | apply Z.eqb_eq, Hhit].
    + exact Hres.
  - apply GetLength_after_SetPayload. reflexivity.
  - intros Hrange. rewrite GetLength_after_SetPayload by reflexivity.
    apply wrap16_small. lia.
Qed.

(** C9, as the code has it. Each call adds the payload's length to the
    cached length field, modulo 65536, so two calls add it twice: a
    fresh frame ends at 14 plus twice the length, reduced modulo 65536,
    which is exactly 14 plus twice the length when that is below 65536,
    and then differs from the 14 plus the length a recomputation would
    give as soon as the length is nonzero. *)
Theorem SetPayload_twice_accumulates (p : Packet) (pl : P) :
  Length (fst (SetPayload (fst (SetPayload p pl)) pl))
    = wrap16 (Length p + 2 * packet.GetLength pl) /\
  Length (fst (SetPayload (fst (SetPayload Make pl)) pl))
    = wrap16 (14 + 2 * packet.GetLength pl) /\
  (0 <= packet.GetLength pl -> 14 + 2 * packet.GetLength pl < 65536 ->
   Length (fst (SetPayload (fst (SetPayload Make pl)) pl))
     = 14 + 2 * packet.GetLength pl) /\
  (0 < packet.GetLength pl -> 14 + 2 * packet.GetLength pl < 65536 ->
   Length (fst (SetPayload (fst (SetPayload Make pl)) pl))
     <> 14 + packet.GetLength pl).
Proof.
  assert (Hgen : forall q : Packet,
             Length (fst (SetPayload (fst (SetPayload q pl)) pl))
               = wrap16 (Length q + 2 * packet.GetLength pl)).
  { intros q. cbn [SetPayload fst Length]. apply wrap16_add_twice. }
  split; [apply Hgen |].
  split; [apply (Hgen Make) |].
  split.
  - intros Hpos Hfit. rewrite (Hgen Make). apply wrap16_small.
    cbn [Make Length]. lia.
  - intros Hpos Hfit. rewrite (Hgen Make), wrap16_small; cbn [Make Length]; lia.
Qed.

(** C6. A frame answers nothing when the other side is absent or does
    not report the Ethernet type, and nothing of another EtherType.
    When the types match, a frame with a payload answers exactly when
    its payload answers the other frame's payload, and a frame without
    a payload answers, whatever the other frame carries. *)
Theorem Answers_contract (p : Packet) :
  Answers p None = packet.Returns false /\
  (forall o, Layer_GetType o <> packet.Eth ->
             Answers p (Some o) = packet.Returns false) /\
  (forall q, Type_ p <> Type_ q ->
             Answers p (Some (EthLayer q)) = packet.Returns false) /\
  (forall q pl, Type_ p = Type_ q -> Payload p = Some pl ->
                Answers p (Some (EthLayer q))
                  = packet.Answers pl (Payload q)) /\
  (forall q, Type_ p = Type_ q -> Payload p = None ->
             Answers p (Some (EthLayer q)) = packet.Returns true).
Proof.
  split; [reflexivity |].
  split; [| split; [| split]].
  - intros o Hty. unfold Answers. apply Z.eqb_neq in Hty. rewrite Hty.
    reflexivity.
  - intros q Hty. unfold Answers. cbn [Layer_GetType GetType].
    rewrite Z.eqb_refl. apply Z.eqb_neq in Hty. rewrite Hty. reflexivity.
  - intros q pl Hty Hpl. unfold Answers. cbn [Layer_GetType GetType].
    rewrite Z.eqb_refl. apply Z.eqb_eq in Hty. rewrite Hty, Hpl. reflexivity.
  - intros q Hty Hpl. unfold Answers. cbn [Layer_GetType GetType].
    rewrite Z.eqb_refl. apply Z.eqb_eq in Hty. rewrite Hty, Hpl. reflexivity.
Qed.

End FrameFacts.

(** ** The properties at concrete frames *)

Lemma GetLength_below_header_counterexample :
  Type_ (loaded_frame (probe (@packet.IPv4 registry) 65530)) = EtherType.IPv4 /\
  pkt_payload (loaded_frame (probe (@packet.IPv4 registry) 65530))
    = Some (probe (@packet.IPv4 registry) 65530) /\
  @GetLength Probe Probe_ops
    (loaded_frame (probe (@packet.IPv4 registry) 65530)) = 8 /\
  ~ (14 <= @GetLength Probe Probe_ops
             (loaded_frame (probe (@packet.IPv4 registry) 65530))) /\
  @GetLength Probe Probe_ops
    (loaded_frame (probe (@packet.IPv4 registry) 65530)) <> 14 + 65530.
Proof.
  split; [reflexivity |].
  split; [reflexivity |].
  split; [reflexivity |].
  split; [vm_compute; intros H; apply H; reflexivity | discriminate].
Qed.

Lemma GetLength_cases_witness :
  (Type_ llc_frame = EtherType.LLC /\ 0 < Length llc_frame) /\
  @GetLength Probe Probe_ops llc_frame = 32 /\
  ~ (Type_ (loaded_frame (probe (@packet.IPv4 registry) 20)) = EtherType.LLC /\
     0 < Length (loaded_frame (probe (@packet.IPv4 registry) 20))) /\
  @GetLength Probe Probe_ops (loaded_frame (probe (@packet.IPv4 registry) 20))
    = 34 /\
  14 <= @GetLength Probe Probe_ops
          (loaded_frame (probe (@packet.IPv4 registry) 20)).
Proof.
  assert (Hllc : Type_ llc_frame = EtherType.LLC /\ 0 < Length llc_frame)
    by (split; reflexivity).
  assert (Hno : ~ (Type_ (loaded_frame (probe (@packet.IPv4 registry) 20))
                     = EtherType.LLC /\
                   0 < Length (loaded_frame (probe (@packet.IPv4 registry) 20))))
    by (intros [Hty _]; discriminate Hty).
  split; [exact Hllc |].
  split.
  { exact (proj1 (@GetLength_cases Probe Probe_ops llc_frame)
             (proj1 Hllc) (proj2 Hllc)). }
  split; [exact Hno |].
  pose proof (@GetLength_cases Probe Probe_ops
                (loaded_frame (probe (@packet.IPv4 registry) 20)))
    as (_ & Hpl & _ & _ & Hmin).
  split.
  - exact (Hpl (probe (@packet.IPv4 registry) 20) Hno eq_refl).
  - apply (Hmin Hno). intros pl Hpl'. injection Hpl' as <-.
    cbn. lia.
Defined.

Lemma SetPayload_length_wraps_counterexample :
  @packet.GetLength Probe Probe_ops (probe (@packet.IPv4 registry) 65530)
    = 65530 /\
  @GetLength Probe Probe_ops
    (fst (@SetPayload registry Probe Probe_ops Make
            (probe (@packet.IPv4 registry) 65530))) = 8 /\
  @GetLength Probe Probe_ops
    (fst (@SetPayload registry Probe Probe_ops Make
            (probe (@packet.IPv4 registry) 65530))) <> 14 + 65530.
Proof.
  split; [reflexivity |].
  split; [reflexivity | discriminate].
Qed.

Lemma SetPayload_fresh_witness :
  0 <= @packet.GetLength Probe Probe_ops (probe (@packet.IPv4 registry) 20)
    <= 65521 /\
  Type_ (fst (@SetPayload registry Probe Probe_ops Make
                (probe (@packet.IPv4 registry) 20))) = EtherType.IPv4 /\
  @GetLength Probe Probe_ops
    (fst (@SetPayload registry Probe Probe_ops Make
            (probe (@packet.IPv4 registry) 20))) = 34 /\
  (forall t, In t (@ethertype_to_type_map registry) ->
             snd t <> @packet.GetType Probe Probe_ops (probe 99 20)) /\
  Type_ (fst (@SetPayload registry Probe Probe_ops Make (probe 99 20)))
    = 0x0000.
Proof.
  assert (Hfit : 0 <= @packet.GetLength Probe Probe_ops
                        (probe (@packet.IPv4 registry) 20) <= 65521)
    by (cbn; lia).
  assert (Hnone : forall t, In t (@ethertype_to_type_map registry) ->
                    snd t <> @packet.GetType Probe Probe_ops (probe 99 20)).
  { intros t Hin. simpl in Hin.
    repeat (destruct Hin as [<- | Hin]; [discriminate |]). contradiction. }
  pose proof (@SetPayload_fresh registry Probe Probe_ops
                (probe (@packet.IPv4 registry) 20))
    as (_ & _ & Hty & _ & _ & Hlen).
  pose proof (@SetPayload_fresh registry Probe Probe_ops (probe 99 20))
    as (_ & _ & _ & Hunmapped & _).
  split; [exact Hfit |].
  split; [exact Hty |].
  split; [exact (Hlen Hfit) |].
  split; [exact Hnone | exact (Hunmapped Hnone)].
Defined.

Lemma SetPayload_twice_wraps_counterexample :
  @packet.GetLength Probe Probe_ops (probe (@packet.IPv4 registry) 40000)
    = 40000 /\
  Length (fst (@SetPayload registry Probe Probe_ops
                 (fst (@SetPayload registry Probe Probe_ops Make
                         (probe (@packet.IPv4 registry) 40000)))
                 (probe (@packet.IPv4 registry) 40000))) = 14478 /\
  Length (fst (@SetPayload registry Probe Probe_ops
                 (fst (@SetPayload registry Probe Probe_ops Make
                         (probe (@packet.IPv4 registry) 40000)))
                 (probe (@packet.IPv4 registry) 40000))) <> 14 + 2 * 40000.
Proof.
  split; [reflexivity |].
  split; [reflexivity | discriminate].
Qed.

Lemma SetPayload_twice_accumulates_witness :
  0 < @packet.GetLength Probe Probe_ops (probe (@packet.IPv4 registry) 20) /\
  14 + 2 * @packet.GetLength Probe Probe_ops
             (probe (@packet.IPv4 registry) 20) < 65536 /\
  Length (fst (@SetPayload registry Probe Probe_ops
                 (fst (@SetPayload registry Probe Probe_ops Make
                         (probe (@packet.IPv4 registry) 20)))
                 (probe (@packet.IPv4 registry) 20))) = 54 /\
  Length (fst (@SetPayload registry Probe Probe_ops
                 (fst (@SetPayload registry Probe Probe_ops Make
                         (probe (@packet.IPv4 registry) 20)))
                 (probe (@packet.IPv4 registry) 20))) <> 34.
Proof.
  assert (Hpos : 0 < @packet.GetLength Probe Probe_ops
                       (probe (@packet.IPv4 registry) 20)) by (cbn; lia).
  assert (Hfit : 14 + 2 * @packet.GetLength Probe Probe_ops
                            (probe (@packet.IPv4 registry) 20) < 65536)
    by (cbn; lia).
  pose proof (@SetPayload_twice_accumulates registry Probe Probe_ops Make
                (probe (@packet.IPv4 registry) 20))
    as (_ & _ & Hsum & Hdiff).
  split; [exact Hpos |].
  split; [exact Hfit |].
  split; [exact (Hsum (Z.lt_le_incl _ _ Hpos) Hfit) | exact (Hdiff Hpos Hfit)].
Defined.

Lemma Answers_contract_witness :
  @Layer_GetType registry Probe Probe_ops
    (OtherLayer (probe (@packet.IPv4 registry) 20)) <> @packet.Eth registry /\
  @Answers registry Probe Probe_ops (bare_frame EtherType.IPv4)
    (Some (OtherLayer (probe (@packet.IPv4 registry) 20)))
    = packet.Returns false /\
  Type_ (bare_frame EtherType.IPv4) <> Type_ (bare_frame EtherType.ARP) /\
  @Answers registry Probe Probe_ops (bare_frame EtherType.IPv4)
    (Some (EthLayer (bare_frame EtherType.ARP))) = packet.Returns false /\
  Type_ (bare_frame EtherType.IPv4)
    = Type_ (loaded_frame (probe (@packet.IPv4 registry) 20)) /\
  Payload (bare_frame EtherType.IPv4) = None /\
  @Answers registry Probe Probe_ops (bare_frame EtherType.IPv4)
    (Some (EthLayer (loaded_frame (probe (@packet.IPv4 registry) 20))))
    = packet.Returns true /\
  @Answers registry Probe Probe_ops
    (loaded_frame (probe (@packet.IPv4 registry) 20))
    (Some (EthLayer (bare_frame EtherType.IPv4)))
    = @packet.Answers Probe Probe_ops (probe (@packet.IPv4 registry) 20) None.
Proof.
  assert (Hother : @Layer_GetType registry Probe Probe_ops
                     (OtherLayer (probe (@packet.IPv4 registry) 20))
                   <> @packet.Eth registry) by discriminate.
  assert (Hdiff : Type_ (bare_frame EtherType.IPv4)
                  <> Type_ (bare_frame EtherType.ARP)) by discriminate.
  assert (Hsame : Type_ (bare_frame EtherType.IPv4)
                  = Type_ (loaded_frame (probe (@packet.IPv4 registry) 20)))
    by reflexivity.
  pose proof (@Answers_contract registry Probe Probe_ops
                (bare_frame EtherType.IPv4))
    as (_ & Hfamily & Htype & _ & Hbare).
  pose proof (@Answers_contract registry Probe Probe_ops
                (loaded_frame (probe (@packet.IPv4 registry) 20)))
    as (_ & _ & _ & Hrec & _).
  split; [exact Hother |].
  split; [exact (Hfamily _ Hother) |].
  split; [exact Hdiff |].
  split; [exact (Htype _ Hdiff) |].
  split; [exact Hsame |].
  split; [reflexivity |].
  split; [exact (Hbare _ Hsame eq_refl) |].
  exact (Hrec (bare_frame EtherType.IPv4)
           (probe (@packet.IPv4 registry) 20) (eq_sym Hsame) eq_refl).
Defined.

(** The two decoding examples of the specification: type bytes 08 00
    give an IPv4 frame that reports 14 bytes, type bytes 00 20 give an
    802.3 frame of length 32. *)
Example Unpack_IPv4_header :
  fst (fst (Unpack (BI := ByteBuffer_ops) (Make (P := Probe))
              (buffer_of (example_header x08 x00))))
    = bare_frame EtherType.IPv4 /\
  @GetLength Probe Probe_ops
    (fst (fst (Unpack (BI := ByteBuffer_ops) (Make (P := Probe))
                 (buffer_of (example_header x08 x00))))) = 14.
Proof. split; reflexivity. Qed.

Example Unpack_LLC_header :
  fst (fst (Unpack (BI := ByteBuffer_ops) (Make (P := Probe))
              (buffer_of (example_header x00 x20))))
    = llc_frame.
Proof. reflexivity. Qed.

(** * Further properties of the codec *)

(** ** The range of the reverse translation *)

Section TranslationRange.

Context {T : packet.Types}.

Lemma TypeToEtherType_candidates (c : Z) :
  In (TypeToEtherType c)
     [EtherType.None; EtherType.ARP; EtherType.IPv4; EtherType.IPv6;
      EtherType.LLC; EtherType.LLDP; EtherType.VLAN; EtherType.TRILL;
      EtherType.WoL].
Proof.
  unfold TypeToEtherType, ethertype_to_type_map, scan_reverse, fst, snd.
  repeat match goal with
         | |- context [if ?a =? ?b then _ else _] =>
             destruct (Z.eqb_spec a b); [simpl; tauto |]
         end.
  simpl; tauto.
Qed.

(** X1. Whatever the canonical type, the reverse translation yields an
    EtherType that the table lists, a 16-bit value, and never Q-in-Q:
    attaching a payload cannot set the EtherType to 0x88a8. *)
Theorem TypeToEtherType_never_QinQ (c : Z) :
  In (TypeToEtherType c) (map fst ethertype_to_type_map) /\
  0 <= TypeToEtherType c < 65536 /\
  TypeToEtherType c <> EtherType.QinQ.
Proof.
  pose proof (TypeToEtherType_candidates c) as Hc. simpl in Hc.
  repeat (destruct Hc as [<- | Hc];
          [split; [simpl; tauto |];
           split; [split; [apply Z.leb_le | apply Z.ltb_lt]; reflexivity
                  | discriminate] |]).
  contradiction.
Qed.

End TranslationRange.

(** ** What a decode leaves in the frame *)

(** X2. Whatever the cursor delivers, the frame a decode leaves has the
    LLC sentinel as its type or a type of at least 0x0600: never None
    (0x0000), nor any other value below 0x0600.  The payload is the one
    the frame had before the decode. *)
Theorem Unpack_type_invariant {P B : Type} {BI : packet.Buffer B}
    (p : Packet (P := P)) (b : B) :
  (Type_ (fst (fst (Unpack p b))) = EtherType.LLC \/
   0x0600 <= Type_ (fst (fst (Unpack p b)))) /\
  Type_ (fst (fst (Unpack p b))) <> EtherType.None /\
  pkt_payload (fst (fst (Unpack p b))) = pkt_payload p.
Proof.
  unfold Unpack.
  destruct (packet.Next b 6) as [dst b1].
  destruct (packet.Next b1 6) as [src b2].
  destruct (packet.ReadI b2 (Type_ p)) as [[ty b3] e].
  destruct (Z.ltb_spec ty 0x0600) as [Hlt | Hge]; cbn [fst Type_ pkt_payload].
  - split; [left; reflexivity |]. split; [discriminate | reflexivity].
  - split; [right; exact Hge |]. split; [| reflexivity].
    unfold EtherType.None. lia.
Qed.

Section DecodedLength.

Context {P : Type} {PI : packet.Packet P}.


End DecodedLength.


(** ** Answer matching, payload attachment and the payload type *)

Section FrameComposition.

Context {T : packet.Types}.
Context {P : Type} {PI : packet.Packet P}.

(** X4. Answer matching looks at the two EtherTypes and the two
    payloads only: frames that agree on these give the same verdict,
    whatever their addresses and cached lengths. *)
Theorem Answers_ignores_addresses (p p' q q' : Packet (P := P)) :
  Type_ p = Type_ p' -> pkt_payload p = pkt_payload p' ->
  Type_ q = Type_ q' -> pkt_payload q = pkt_payload q' ->
  Answers p (Some (EthLayer q)) = Answers p' (Some (EthLayer q')).
Proof.
  intros Hty Hpl Hty' Hpl'. unfold Answers, Payload.
  cbn [Layer_GetType GetType]. rewrite Hty, Hpl, Hty', Hpl'. reflexivity.
Qed.

(** X5. After a payload has been attached, the frame's payload type is
    the payload's canonical type when the table lists that type, and
    [packet.None], not [packet.Raw], when it does not. *)
Theorem PayloadType_after_SetPayload (p : Packet (P := P)) (pl : P) :
  (In (packet.GetType pl) (map snd ethertype_to_type_map) ->
   PayloadType (fst (SetPayload p pl)) = packet.GetType pl) /\
  ((forall t, In t ethertype_to_type_map -> snd t <> packet.GetType pl) ->
   PayloadType (fst (SetPayload p pl)) = packet.None).
Proof.
  unfold PayloadType. cbn [SetPayload fst Type_]. split.
  - intros Hin. unfold EtherTypeToType, TypeToEtherType.
    apply scan_reverse_forward; [apply ethertypes_listed_once | exact Hin].
  - intros Hnone. unfold TypeToEtherType.
    destruct (scan_reverse_spec ethertype_to_type_map EtherType.None
                (packet.GetType pl)) as [(i & t & Hfm & _) | [_ Hres]].
    + exfalso. destruct Hfm as (Hnth & Hhit & _).
      apply (Hnone t); [eapply nth_error_In, Hnth | apply Z.eqb_eq, Hhit].
    + rewrite Hres. reflexivity.
Qed.


End FrameComposition.

Lemma Answers_ignores_addresses_witness :
  @Answers registry Probe Probe_ops
    (loaded_frame (probe (@packet.IPv4 registry) 20))
    (Some (EthLayer (bare_frame EtherType.IPv4)))
  = @Answers registry Probe Probe_ops
      {| DstAddr := example_src; SrcAddr := example_dst;
         Type_ := EtherType.IPv4; Length := 0;
         pkt_payload := Some (probe (@packet.IPv4 registry) 20) |}
      (Some (EthLayer {| DstAddr := example_src; SrcAddr := example_dst;
                         Type_ := EtherType.IPv4; Length := 60;
                         pkt_payload := None |})).
Proof.
  exact (@Answers_ignores_addresses registry Probe Probe_ops
           (loaded_frame (probe (@packet.IPv4 registry) 20))
           {| DstAddr := example_src; SrcAddr := example_dst;
              Type_ := EtherType.IPv4; Length := 0;
              pkt_payload := Some (probe (@packet.IPv4 registry) 20) |}
           (bare_frame EtherType.IPv4)
           {| DstAddr := example_src; SrcAddr := example_dst;
              Type_ := EtherType.IPv4; Length := 60;
              pkt_payload := None |}
           eq_refl eq_refl eq_refl eq_refl).
Defined.

Lemma PayloadType_after_SetPayload_witness :
  In (@packet.GetType Probe Probe_ops (probe (@packet.IPv4 registry) 20))
     (map snd (@ethertype_to_type_map registry)) /\
  @PayloadType registry Probe
    (fst (@SetPayload registry Probe Probe_ops Make
            (probe (@packet.IPv4 registry) 20))) = @packet.IPv4 registry /\
  (forall t, In t (@ethertype_to_type_map registry) ->
             snd t <> @packet.GetType Probe Probe_ops (probe 99 20)) /\
  @PayloadType registry Probe
    (fst (@SetPayload registry Probe Probe_ops Make (probe 99 20)))
    = @packet.None registry.
Proof.
  assert (Hin : In (@packet.GetType Probe Probe_ops
                      (probe (@packet.IPv4 registry) 20))
                   (map snd (@ethertype_to_type_map registry)))
    by (simpl; tauto).
  assert (Hnone : forall t, In t (@ethertype_to_type_map registry) ->
                    snd t <> @packet.GetType Probe Probe_ops (probe 99 20)).
  { intros t Hin'. simpl in Hin'.
    repeat (destruct Hin' as [<- | Hin']; [discriminate |]). contradiction. }
  split; [exact Hin |].
  split.
  { exact (proj1 (@PayloadType_after_SetPayload registry Probe Probe_ops
                    Make (probe (@packet.IPv4 registry) 20)) Hin). }
  split; [exact Hnone |].
  exact (proj2 (@PayloadType_after_SetPayload registry Probe Probe_ops
                  Make (probe 99 20)) Hnone).
Defined.


(** ** Encoding, and decoding what was encoded *)

Lemma byte_to_of_Z (z : Z) : byte_to_Z (byte_of_Z z) = z mod 256.
Proof.
  unfold byte_of_Z, byte_to_Z.
  assert (Hr : 0 <= z mod 256 < 256) by (apply Z.mod_pos_bound; lia).
  destruct (Byte.of_N (Z.to_N (z mod 256))) as [b |] eqn:Hb.
  - apply Byte.to_of_N in Hb. rewrite Hb. apply Z2N.id. lia.
  - apply Byte.of_N_None_iff in Hb. lia.
Qed.

Lemma be16_decode_encode (v : Z) :
  0 <= v < 65536 ->
  be16_decode (byte_of_Z (Z.shiftr v 8)) (byte_of_Z v) = v.
Proof.
  intros Hv. rewrite be16_decode_sum, !byte_to_of_Z.
  rewrite Z.shiftr_div_pow2 by lia. change (2 ^ 8) with 256.
  rewrite (Z.mod_small (v / 256)).
  - pose proof (Z.div_mod v 256). lia.
  - split; [apply Z.div_pos; lia | apply Z.div_lt_upper_bound; lia].
Qed.

Section EncodeDecode.

Context {P : Type}.

(** The value [Pack] writes as the type-or-length field. *)
Lemma Pack_bytes (p : Packet (P := P)) (out : ByteBuffer) :
  fst (Pack (BI := ByteBuffer_ops) p out)
    = {| buf := buf out ++ DstAddr p ++ SrcAddr p
                  ++ be16_encode (if Type_ p =? EtherType.LLC
                                  then Length p else Type_ p);
         off := off out |}.
Proof.
  unfold Pack. cbn [packet.Write packet.WriteI ByteBuffer_ops fst].
  destruct (Type_ p =? EtherType.LLC);
    cbn [negb]; unfold ByteBuffer_WriteI, ByteBuffer_Write; cbn [buf off];
    rewrite <- !app_assoc; reflexivity.
Qed.

(** X7. Encoding never fails and only appends: the bytes already in the
    buffer and the read position stay as they were, and what is added
    is the destination address, the source address and two more bytes,
    fourteen bytes in all for a frame with 6-byte addresses. *)
Theorem Pack_appends_header (p : Packet (P := P)) (out : ByteBuffer) :
  snd (Pack (BI := ByteBuffer_ops) p out) = None /\
  off (fst (Pack (BI := ByteBuffer_ops) p out)) = off out /\
  (exists hi lo,
      buf (fst (Pack (BI := ByteBuffer_ops) p out))
        = buf out ++ DstAddr p ++ SrcAddr p ++ [hi; lo]) /\
  (length (DstAddr p) = 6%nat -> length (SrcAddr p) = 6%nat ->
   length (buf (fst (Pack (BI := ByteBuffer_ops) p out)))
     = (length (buf out) + 14)%nat).
Proof.
  rewrite Pack_bytes. cbn [buf off]. split; [reflexivity |].
  split; [reflexivity |]. split.
  - eexists _, _. reflexivity.
  - intros Hd Hs. rewrite !length_app, Hd, Hs. reflexivity.
Qed.

(** Decoding, from the buffer it was written to, the header of a frame
    whose type-or-length field holds [v]. *)
Lemma Pack_then_Unpack (p q : Packet (P := P)) (out : ByteBuffer) :
  length (DstAddr p) = 6%nat -> length (SrcAddr p) = 6%nat ->
  off out = length (buf out) ->
  0 <= (if Type_ p =? EtherType.LLC then Length p else Type_ p) < 65536 ->
  fst (fst (Unpack (BI := ByteBuffer_ops) q
              (fst (Pack (BI := ByteBuffer_ops) p out))))
    = if (if Type_ p =? EtherType.LLC then Length p else Type_ p) <? 0x0600
      then {| DstAddr := DstAddr p; SrcAddr := SrcAddr p;
              Type_ := EtherType.LLC;
              Length := if Type_ p =? EtherType.LLC
                        then Length p else Type_ p;
              pkt_payload := pkt_payload q |}
      else {| DstAddr := DstAddr p; SrcAddr := SrcAddr p;
              Type_ := if Type_ p =? EtherType.LLC
                       then Length p else Type_ p;
              Length := Length q; pkt_payload := pkt_payload q |}.
Proof.
  intros Hd Hs Hoff Hv. rewrite Pack_bytes.
  set (v := if Type_ p =? EtherType.LLC then Length p else Type_ p) in *.
  assert (Hun : unread {| buf := buf out ++ DstAddr p ++ SrcAddr p
                                   ++ be16_encode v;
                          off := off out |}
                = DstAddr p ++ SrcAddr p
                    ++ byte_of_Z (Z.shiftr v 8) :: byte_of_Z v :: []).
  { unfold unread. cbn [buf off]. rewrite Hoff, skipn_app, skipn_all.
    rewrite Nat.sub_diag. reflexivity. }
  rewrite (Unpack_header q _ _ _ _ _ _ Hd Hs Hun).
  rewrite (be16_decode_encode v Hv). cbn [fst].
  destruct (v <? 1536); reflexivity.
Qed.

(** X8. Encode, then decode from the same buffer.  A frame with 6-byte
    addresses and an EtherType between 0x0600 and 0xffff comes back
    with its addresses and its EtherType; its cached length is not
    carried, the target keeps its own.  An 802.3 frame (type LLC) whose
    length is below 0x0600 comes back with its addresses, the LLC type
    and its length. *)
Theorem Pack_Unpack_roundtrip (p q : Packet (P := P)) (out : ByteBuffer) :
  length (DstAddr p) = 6%nat -> length (SrcAddr p) = 6%nat ->
  off out = length (buf out) ->
  (0x0600 <= Type_ p < 65536 ->
   fst (fst (Unpack (BI := ByteBuffer_ops) q
               (fst (Pack (BI := ByteBuffer_ops) p out))))
     = {| DstAddr := DstAddr p; SrcAddr := SrcAddr p; Type_ := Type_ p;
          Length := Length q; pkt_payload := pkt_payload q |}) /\
  (Type_ p = EtherType.LLC -> 0 <= Length p < 0x0600 ->
   fst (fst (Unpack (BI := ByteBuffer_ops) q
               (fst (Pack (BI := ByteBuffer_ops) p out))))
     = {| DstAddr := DstAddr p; SrcAddr := SrcAddr p;
          Type_ := EtherType.LLC; Length := Length p;
          pkt_payload := pkt_payload q |}).
Proof.
  intros Hd Hs Hoff. split.
  - intros Hty. rewrite (Pack_then_Unpack p q out Hd Hs Hoff).
    + replace (Type_ p =? EtherType.LLC) with false
        by (symmetry; apply Z.eqb_neq; unfold EtherType.LLC; lia).
      replace (Type_ p <? 0x0600) with false
        by (symmetry; apply Z.ltb_ge; lia).
      reflexivity.
    + replace (Type_ p =? EtherType.LLC) with false
        by (symmetry; apply Z.eqb_neq; unfold EtherType.LLC; lia).
      lia.
  - intros Hty Hlen. rewrite (Pack_then_Unpack p q out Hd Hs Hoff).
    + rewrite Hty, Z.eqb_refl.
      replace (Length p <? 0x0600) with true
        by (symmetry; apply Z.ltb_lt; lia).
      reflexivity.
    + rewrite Hty, Z.eqb_refl. lia.
Qed.


End EncodeDecode.

Lemma Pack_appends_header_witness :
  length (DstAddr (bare_frame EtherType.IPv4)) = 6%nat /\
  length (SrcAddr (bare_frame EtherType.IPv4)) = 6%nat /\
  length (buf (fst (Pack (BI := ByteBuffer_ops) (bare_frame EtherType.IPv4)
                      (buffer_of example_src)))) = 20%nat.
Proof.
  do 2 (split; [reflexivity |]).
  exact (proj2 (proj2 (proj2 (Pack_appends_header (bare_frame EtherType.IPv4)
                                (buffer_of example_src))))
           eq_refl eq_refl).
Defined.

Lemma Pack_Unpack_roundtrip_witness :
  0x0600 <= Type_ (bare_frame EtherType.IPv4) < 65536 /\
  fst (fst (Unpack (BI := ByteBuffer_ops) (Make (P := Probe))
              (fst (Pack (BI := ByteBuffer_ops) (bare_frame EtherType.IPv4)
                      (buffer_of [])))))
    = bare_frame EtherType.IPv4 /\
  0 <= Length llc_frame < 0x0600 /\
  fst (fst (Unpack (BI := ByteBuffer_ops) (Make (P := Probe))
              (fst (Pack (BI := ByteBuffer_ops) llc_frame (buffer_of [])))))
    = llc_frame.
Proof.
  assert (Hty : 0x0600 <= Type_ (bare_frame EtherType.IPv4) < 65536)
    by (split; [apply Z.leb_le | apply Z.ltb_lt]; reflexivity).
  assert (Hlen : 0 <= Length llc_frame < 0x0600)
    by (split; [apply Z.leb_le | apply Z.ltb_lt]; reflexivity).
  split; [exact Hty |].
  split.
  { exact (proj1 (Pack_Unpack_roundtrip (bare_frame EtherType.IPv4)
                    (Make (P := Probe))
                    (buffer_of []) eq_refl eq_refl eq_refl) Hty). }
  split; [exact Hlen |].
  exact (proj2 (Pack_Unpack_roundtrip llc_frame (Make (P := Probe))
                  (buffer_of [])
                  eq_refl eq_refl eq_refl) eq_refl Hlen).
Defined.


(** ** From an attached payload to the wire and back *)

Section PayloadOnTheWire.

Context {T : packet.Types}.
Context {P : Type} {PI : packet.Packet P}.


(** X11. A fresh frame given a payload that translates to the LLC
    sentinel is encoded with the payload's length plus 14 in its length
    field: the 802.3 length on the wire counts the header. *)
Theorem LLC_payload_length_field (pl : P) (out : ByteBuffer) :
  TypeToEtherType (packet.GetType pl) = EtherType.LLC ->
  0 <= packet.GetLength pl <= 65521 ->
  buf (fst (Pack (BI := ByteBuffer_ops) (fst (SetPayload Make pl)) out))
    = buf out ++ repeat x00 6 ++ repeat x00 6
        ++ be16_encode (14 + packet.GetLength pl).
Proof.
  intros Hty Hlen. rewrite Pack_bytes.
  cbn [SetPayload fst Type_ Length DstAddr SrcAddr Make buf].
  rewrite Hty, Z.eqb_refl, wrap16_small by lia. reflexivity.
Qed.

End PayloadOnTheWire.


Lemma LLC_payload_length_field_witness :
  @TypeToEtherType registry
    (@packet.GetType Probe Probe_ops (probe (@packet.LLC registry) 46))
    = EtherType.LLC /\
  0 <= @packet.GetLength Probe Probe_ops (probe (@packet.LLC registry) 46)
    <= 65521 /\
  buf (fst (Pack (BI := ByteBuffer_ops)
              (fst (@SetPayload registry Probe Probe_ops
                      (Make (P := Probe))
                      (probe (@packet.LLC registry) 46)))
              (buffer_of [])))
    = repeat x00 12 ++ [x00; x3c].
Proof.
  assert (Hlen : 0 <= @packet.GetLength Probe Probe_ops
                        (probe (@packet.LLC registry) 46) <= 65521)
    by (split; apply Z.leb_le; reflexivity).
  split; [reflexivity |]. split; [exact Hlen |].
  exact (@LLC_payload_length_field registry Probe Probe_ops
           (probe (@packet.LLC registry) 46) (buffer_of []) eq_refl Hlen).
Defined.

(** ** Rendering *)

Module RenderFacts.

Import Stdlib.Strings.String.

Lemma Sprintf_0x_x_head (v : Z) :
  exists s, Render.Sprintf_0x_x v = ("0x" ++ s)%string.
Proof.
  unfold Render.Sprintf_0x_x, HexString.of_N, HexString.of_pos.
  destruct (Z.to_N v); eexists; reflexivity.
Qed.

Lemma Sprintf_0x_x_not_a_name (v : Z) :
  ~ In (Render.Sprintf_0x_x v) Render.EtherType_names.
Proof.
  destruct (Sprintf_0x_x_head v) as [s ->]. simpl.
  intros H. repeat (destruct H as [H | H]; [discriminate H |]). exact H.
Qed.

(** X12. The EtherTypes that render as a name are exactly the ten the
    translation table lists; every other value renders as 0x followed
    by its lowercase hexadecimal digits, which is never one of the
    names. *)
Theorem EtherType_String_names {T : packet.Types} (t : Z) :
  (In t (map fst ethertype_to_type_map) ->
   In (Render.EtherType_String t) Render.EtherType_names) /\
  (~ In t (map fst ethertype_to_type_map) ->
   Render.EtherType_String t = Render.Sprintf_0x_x t /\
   ~ In (Render.EtherType_String t) Render.EtherType_names).
Proof.
  split.
  - intros Hin. simpl in Hin.
    repeat (destruct Hin as [<- | Hin]; [simpl; tauto |]). contradiction.
  - intros Hout.
    assert (Hs : Render.EtherType_String t = Render.Sprintf_0x_x t).
    { unfold Render.EtherType_String.
      repeat match goal with
             | |- context [if ?a =? ?b then _ else _] =>
                 destruct (Z.eqb_spec a b) as [-> | ?];
                 [exfalso; apply Hout; simpl; tauto |]
             end.
      reflexivity. }
    split; [exact Hs |]. rewrite Hs. apply Sprintf_0x_x_not_a_name.
Qed.

(** An EtherType renders as a name, being one of the ten named values,
    or in hexadecimal. *)
Lemma EtherType_String_cases (t : Z) :
  (In t [EtherType.ARP; EtherType.IPv4; EtherType.IPv6; EtherType.LLC;
         EtherType.LLDP; EtherType.None; EtherType.QinQ; EtherType.TRILL;
         EtherType.VLAN; EtherType.WoL] /\
   In (Render.EtherType_String t) Render.EtherType_names) \/
  Render.EtherType_String t = Render.Sprintf_0x_x t.
Proof.
  unfold Render.EtherType_String.
  repeat match goal with
         | |- context [if ?a =? ?b then _ else _] =>
             destruct (Z.eqb_spec a b) as [-> | ?];
             [left; split; simpl; tauto |]
         end.
  right. reflexivity.
Qed.

(** X13. Rendering tells EtherTypes apart: two values that are not
    negative and render as the same string are equal. *)
Theorem EtherType_String_injective (t1 t2 : Z) :
  0 <= t1 -> 0 <= t2 ->
  Render.EtherType_String t1 = Render.EtherType_String t2 -> t1 = t2.
Proof.
  intros H1 H2 Heq.
  destruct (EtherType_String_cases t1) as [[Hk1 Hn1] | Hx1];
    destruct (EtherType_String_cases t2) as [[Hk2 Hn2] | Hx2].
  - simpl in Hk1, Hk2.
    repeat (destruct Hk1 as [<- | Hk1]; [| ]); try contradiction;
      repeat (destruct Hk2 as [<- | Hk2]; [| ]); try contradiction;
      first [reflexivity | discriminate Heq].
  - exfalso. rewrite Heq, Hx2 in Hn1.
    exact (Sprintf_0x_x_not_a_name t2 Hn1).
  - exfalso. rewrite <- Heq, Hx1 in Hn2.
    exact (Sprintf_0x_x_not_a_name t1 Hn2).
  - rewrite Hx1, Hx2 in Heq. unfold Render.Sprintf_0x_x in Heq.
    apply (f_equal HexString.to_N) in Heq.
    rewrite !HexString.to_N_of_N in Heq. lia.
Qed.

End RenderFacts.

Lemma EtherType_String_names_witness :
  In EtherType.QinQ (map fst (@ethertype_to_type_map registry)) /\
  In (Render.EtherType_String EtherType.QinQ) Render.EtherType_names /\
  ~ In 0x1234 (map fst (@ethertype_to_type_map registry)) /\
  Render.EtherType_String 0x1234 = Render.Sprintf_0x_x 0x1234.
Proof.
  assert (Hin : In EtherType.QinQ (map fst (@ethertype_to_type_map registry)))
    by (simpl; tauto).
  assert (Hout : ~ In 0x1234 (map fst (@ethertype_to_type_map registry))).
  { simpl. intros H.
    repeat (destruct H as [H | H]; [discriminate H |]). exact H. }
  split; [exact Hin |].
  split; [exact (proj1 (@RenderFacts.EtherType_String_names registry _) Hin) |].
  split; [exact Hout |].
  exact (proj1 (proj2 (@RenderFacts.EtherType_String_names registry _) Hout)).
Defined.

Lemma EtherType_String_injective_witness :
  0 <= 0x88cc /\ 0 <= EtherType.LLDP /\
  Render.EtherType_String 0x88cc = Render.EtherType_String EtherType.LLDP /\
  0x88cc = EtherType.LLDP.
Proof.
  assert (H1 : 0 <= 0x88cc) by discriminate.
  assert (H2 : 0 <= EtherType.LLDP) by discriminate.
  split; [exact H1 |]. split; [exact H2 |]. split; [reflexivity |].
  exact (RenderFacts.EtherType_String_injective 0x88cc EtherType.LLDP H1 H2
           eq_refl).
Defined.
